(** * h2spec, section 6.5 (SETTINGS): the test cases of [6_5.go]

    A shallow embedding of the two test groups built by
    [SettingsTestGroup] and [DefinedSettingsParametersTestGroup], of the
    octets their handlers put on the wire and of the read loop of the
    case "Sends a SETTINGS frame", followed by the properties of these
    handlers. *)

From Stdlib Require Import ZArith List Bool String Lia.
From Stdlib Require Import Strings.Byte.
Import ListNotations.
Local Open Scope Z_scope.

(** ** Octets *)

(** The value of an octet, as Go's [uint32(b)]. *)
Definition u8 (b : byte) : Z := Z.of_N (Byte.to_N b).

(** Go's [byte(z)]: the low eight bits of [z]. *)
Definition byte_of_Z (z : Z) : byte :=
  match Byte.of_N (Z.to_N (Z.land z 255)) with
  | Some b => b
  | None => x00
  end.

(** [binary.BigEndian]: the unsigned integer spelled by a run of octets,
    most significant first. *)
Definition BigEndian (bs : list byte) : Z :=
  fold_left (fun acc b => Z.lor (Z.shiftl acc 8) (u8 b)) bs 0.

(** The [n] low octets of [z], most significant first. *)
Fixpoint PutBigEndian (n : nat) (z : Z) : list byte :=
  match n with
  | O => []
  | S k => byte_of_Z (Z.shiftr z (8 * Z.of_nat k)) :: PutBigEndian k z
  end.

(** ** Errors

    The error values the read loop tells apart.  Go compares them by
    identity: [io.EOF] and h2spec's [TIMEOUT] are sentinels, a
    [*net.OpError] wraps the error of the failed operation,
    [syscall.Errno] is a number, and an [*os.SyscallError] wraps the
    errno of a failed system call. *)
Inductive error : Type :=
| io_EOF
| TIMEOUT
| syscall_Errno (errno : Z)
| net_OpError (Op : string) (Err : error)
| errors_New (text : string)
| os_SyscallError (Syscall : string) (Err : error).

Module syscall.
(** [syscall.ECONNRESET] (Linux: 0x68). *)
Definition ECONNRESET : error := syscall_Errno 0x68.
End syscall.

(** Go's [==] on two error values. *)
Fixpoint error_eqb (a b : error) : bool :=
  match a, b with
  | io_EOF, io_EOF => true
  | TIMEOUT, TIMEOUT => true
  | syscall_Errno m, syscall_Errno n => m =? n
  | net_OpError o e, net_OpError o' e' => String.eqb o o' && error_eqb e e'
  | errors_New s, errors_New s' => String.eqb s s'
  | os_SyscallError c e, os_SyscallError c' e' =>
      String.eqb c c' && error_eqb e e'
  | _, _ => false
  end.

(** ** The frame codec (package [http2])

    Only what [6_5.go] uses of the codec: the constants, the frame
    header, the dynamic type of a decoded frame, [IsAck], and the wire
    form of a frame header and of a SETTINGS frame. *)
Module http2.

(** [FrameType] (uint8). *)
Definition FrameData : Z := 0x0.
Definition FrameHeaders : Z := 0x1.
Definition FramePriority : Z := 0x2.
Definition FrameRSTStream : Z := 0x3.
Definition FrameSettings : Z := 0x4.
Definition FramePushPromise : Z := 0x5.
Definition FramePing : Z := 0x6.
Definition FrameGoAway : Z := 0x7.
Definition FrameWindowUpdate : Z := 0x8.
Definition FrameContinuation : Z := 0x9.

(** [Flags] (uint8). *)
Definition FlagSettingsAck : Z := 0x1.

(** [ErrCode] (uint32). *)
Definition ErrCodeNo : Z := 0x0.
Definition ErrCodeProtocol : Z := 0x1.
Definition ErrCodeInternal : Z := 0x2.
Definition ErrCodeFlowControl : Z := 0x3.
Definition ErrCodeSettingsTimeout : Z := 0x4.
Definition ErrCodeStreamClosed : Z := 0x5.
Definition ErrCodeFrameSize : Z := 0x6.

(** [SettingID] (uint16). *)
Definition SettingHeaderTableSize : Z := 0x1.
Definition SettingEnablePush : Z := 0x2.
Definition SettingMaxConcurrentStreams : Z := 0x3.
Definition SettingInitialWindowSize : Z := 0x4.
Definition SettingMaxFrameSize : Z := 0x5.
Definition SettingMaxHeaderListSize : Z := 0x6.

Record Setting : Type := mkSetting { ID : Z; Val : Z }.

(** [FrameHeader]; the field [Type] is spelled [Type_] here. *)
Record FrameHeader : Type := mkFrameHeader {
  Type_ : Z;
  Flags : Z;
  Length : Z;
  StreamID : Z
}.

(** [func (f Flags) Has(v Flags) bool { return (f & v) == v }] *)
Definition Has (f v : Z) : bool := Z.land f v =? v.

(** The concrete Go type of a decoded frame, which a type switch
    inspects. *)
Inductive FrameKind : Type :=
| DataFrame | HeadersFrame | PriorityFrame | RSTStreamFrame | SettingsFrame
| PushPromiseFrame | PingFrame | GoAwayFrame | WindowUpdateFrame
| ContinuationFrame | UnknownFrame.

(** A decoded frame: its dynamic type and its header.  The payload is
    left out, the handlers of [6_5.go] never look at it. *)
Record Frame : Type := mkFrame { dyn : FrameKind; Header : FrameHeader }.

(** [func (f *SettingsFrame) IsAck() bool] *)
Definition IsAck (f : Frame) : bool := Has (Flags (Header f)) FlagSettingsAck.

(** The codec's table of parsers: the dynamic type it gives to a frame
    whose header has type [t]. *)
Definition typeFrameParser (t : Z) : FrameKind :=
  if t =? FrameData then DataFrame
  else if t =? FrameHeaders then HeadersFrame
  else if t =? FramePriority then PriorityFrame
  else if t =? FrameRSTStream then RSTStreamFrame
  else if t =? FrameSettings then SettingsFrame
  else if t =? FramePushPromise then PushPromiseFrame
  else if t =? FramePing then PingFrame
  else if t =? FrameGoAway then GoAwayFrame
  else if t =? FrameWindowUpdate then WindowUpdateFrame
  else if t =? FrameContinuation then ContinuationFrame
  else UnknownFrame.

Definition kind_eqb (a b : FrameKind) : bool :=
  match a, b with
  | DataFrame, DataFrame | HeadersFrame, HeadersFrame
  | PriorityFrame, PriorityFrame | RSTStreamFrame, RSTStreamFrame
  | SettingsFrame, SettingsFrame | PushPromiseFrame, PushPromiseFrame
  | PingFrame, PingFrame | GoAwayFrame, GoAwayFrame
  | WindowUpdateFrame, WindowUpdateFrame
  | ContinuationFrame, ContinuationFrame | UnknownFrame, UnknownFrame => true
  | _, _ => false
  end.

(** A frame as the codec's [ReadFrame] hands it out: the dynamic type is
    the one its header type selects, and type and flags are octets. *)
Definition decoded (f : Frame) : bool :=
  kind_eqb (dyn f) (typeFrameParser (Type_ (Header f)))
  && (0 <=? Type_ (Header f)) && (Type_ (Header f) <? 256)
  && (0 <=? Flags (Header f)) && (Flags (Header f) <? 256).

Definition frameHeaderLen : nat := 9.

(** The codec's [readFrameHeader] on the first nine octets of [buf]:
    24-bit length, type, flags, and the stream identifier without its
    reserved top bit. *)
Definition readFrameHeader (buf : list byte) : option FrameHeader :=
  match buf with
  | l0 :: l1 :: l2 :: t :: fl :: s0 :: s1 :: s2 :: s3 :: _ =>
      Some {| Length := BigEndian [l0; l1; l2];
              Type_ := u8 t;
              Flags := u8 fl;
              StreamID := Z.land (BigEndian [s0; s1; s2; s3]) (Z.shiftl 1 31 - 1) |}
  | _ => None
  end.

(** The octets of a frame header, as the codec's [startWrite] and
    [endWrite] lay them out. *)
Definition writeFrameHeader (h : FrameHeader) : list byte :=
  PutBigEndian 3 (Length h) ++ [byte_of_Z (Type_ h); byte_of_Z (Flags h)]
  ++ PutBigEndian 4 (Z.land (StreamID h) (Z.shiftl 1 31 - 1)).

(** One settings parameter on the wire: 16-bit identifier, 32-bit
    value. *)
Definition writeSetting (s : Setting) : list byte :=
  PutBigEndian 2 (ID s) ++ PutBigEndian 4 (Val s).

(** The octets [Framer.WriteSettings] emits. *)
Definition settingsFrame (settings : list Setting) : list byte :=
  writeFrameHeader {| Type_ := FrameSettings; Flags := 0;
                      Length := 6 * Z.of_nat (List.length settings);
                      StreamID := 0 |}
  ++ List.concat (map writeSetting settings).

(** Reading one parameter pair back from six octets. *)
Definition readSetting (p : list byte) : option Setting :=
  match p with
  | [i0; i1; v0; v1; v2; v3] =>
      Some {| ID := BigEndian [i0; i1]; Val := BigEndian [v0; v1; v2; v3] |}
  | _ => None
  end.

End http2.

(** ** The result model *)

(** [Result]: what a handler expects and what it observed.  The
    composite literals of [6_5.go] give [ResultFrame] three fields, in
    this order, and [ResultError] the error it carries. *)
Inductive Result : Type :=
| ResultFrame (Type_ : Z) (Flags : Z) (ErrCode : Z)
| ResultConnectionClose
| ResultTestTimeout
| ResultError (err : error).

Definition Result_eqb (a b : Result) : bool :=
  match a, b with
  | ResultFrame t f e, ResultFrame t' f' e' => (t =? t') && (f =? f') && (e =? e')
  | ResultConnectionClose, ResultConnectionClose => true
  | ResultTestTimeout, ResultTestTimeout => true
  | ResultError e, ResultError e' => error_eqb e e'
  | _, _ => false
  end.

(** Modelled from the spec: the execution context is declared outside
    [6_5.go]; it holds the target address, the connection mode and the
    maximum wait, and is never written to during a run. *)
Record Context : Type := mkContext {
  Host : string;
  Port : Z;
  Tls : bool;
  Timeout : Z
}.

(** ** The connection wrapper *)

(** What one call of [ReadFrame] returns: a frame, or an error. *)
Inductive ReadResult : Type :=
| ReadOk (f : http2.Frame)
| ReadErr (err : error).

(** The state of the one connection a handler owns: the octets handed
    to the transport so far (oldest first), what the coming calls of
    [ReadFrame] will return, in order, and whether [Close] was called. *)
Record Http2Conn : Type := mkHttp2Conn {
  written : list byte;
  pending : list ReadResult;
  closed : bool
}.

(** The run of a piece of handler code from a connection state: it
    returns a value and leaves a state; or it is still waiting inside
    [ReadFrame] when the peer's recorded behaviour ends; or it leaves
    what is modelled here. *)
Inductive Run (A : Type) : Type :=
| Returned (a : A) (c : Http2Conn)
| Waiting
| Unsupported.
Arguments Returned {A} a c.
Arguments Waiting {A}.
Arguments Unsupported {A}.

Definition Conn (A : Type) : Type := Http2Conn -> Run A.

Definition ret {A} (a : A) : Conn A := fun c => Returned a c.

Definition bind {A B} (m : Conn A) (k : A -> Conn B) : Conn B :=
  fun c => match m c with
           | Returned a c' => k a c'
           | Waiting => Waiting
           | Unsupported => Unsupported
           end.

Declare Scope conn_scope.
Delimit Scope conn_scope with conn.
Notation "x <- m ;; k" := (bind m (fun x => k))
  (at level 61, m at next level, right associativity) : conn_scope.
Notation "m ;; k" := (bind m (fun _ => k))
  (at level 61, right associativity) : conn_scope.
Local Open Scope conn_scope.

(** [conn.Write(bs)]: the octets go out after those already written. *)
Definition conn_Write (bs : list byte) : Conn unit :=
  fun c => Returned tt {| written := written c ++ bs;
                          pending := pending c;
                          closed := closed c |}.

(** [fmt.Fprintf(conn, format)] with no operand.  A format without the
    octet 0x25 (the percent sign) is written as it stands; a format
    with a verb is not modelled. *)
Definition Fprintf (format : list byte) : Conn unit :=
  if existsb (Byte.eqb x25) format then fun _ => Unsupported
  else conn_Write format.

(** [fr.WriteSettings(settings...)], the codec writing to the same
    connection. *)
Definition WriteSettings (settings : list http2.Setting) : Conn unit :=
  conn_Write (http2.settingsFrame settings).

(** Modelled from the spec: [Http2Conn.ReadFrame] is declared outside
    [6_5.go].  It returns the next decoded frame or an error (the peer
    closed, the wait of [t] elapsed, the transport failed); here each
    call takes the next recorded answer of the peer. *)
Definition ReadFrame (t : Z) : Conn ReadResult :=
  fun c => match pending c with
           | [] => Waiting
           | r :: rest => Returned r {| written := written c;
                                        pending := rest;
                                        closed := closed c |}
           end.

(** [conn.Close()]. *)
Definition Close (c : Http2Conn) : Http2Conn :=
  {| written := written c; pending := pending c; closed := true |}.

(** [defer http2Conn.conn.Close()]: the connection is closed when the
    handler returns. *)
Definition defer_Close {A} (body : Conn A) : Conn A :=
  fun c => match body c with
           | Returned a c' => Returned a (Close c')
           | Waiting => Waiting
           | Unsupported => Unsupported
           end.

(** What a handler returns: the acceptable results and the observed
    one; [None] is Go's nil [Result]. *)
Definition Verdict : Type := (list Result * option Result)%type.

(** The parts of h2spec that [6_5.go] uses and that are declared in
    other files: the two default constants, the opening of a connection
    and the shared check for a connection error. *)
Class Harness : Type := mkHarness {
  FlagDefault : Z;
  ErrCodeDefault : Z;
  CreateHttp2Conn : Context -> bool -> Http2Conn;
  TestConnectionError : Context -> list Z -> Conn Verdict
}.

(** ** The read loop of "Sends a SETTINGS frame" *)

(** How one turn of the labelled [for] ends: with [break loop], or by
    going round again; both carry the value of [actual]. *)
Inductive LoopState : Type :=
| Break (actual : option Result)
| Continue (actual : option Result).

(** The type assertion of [err] to a pointer to [net.OpError], then
    [ok && opErr.Err == syscall.ECONNRESET]. *)
Definition isConnReset (err : error) : bool :=
  match err with
  | net_OpError _ opErr_Err => error_eqb opErr_Err syscall.ECONNRESET
  | _ => false
  end.

(** The body of the loop, from the answer of [ReadFrame] on. *)
Definition loop_body `{Harness} (actual : option Result) (r : ReadResult)
  : LoopState :=
  match r with
  | ReadErr err =>
      if error_eqb err io_EOF || isConnReset err then
        Break (Some ResultConnectionClose)
      else if error_eqb err TIMEOUT then
        match actual with
        | None => Break (Some ResultTestTimeout)
        | Some _ => Break actual
        end
      else
        Break (Some (ResultError err))
  | ReadOk f =>
      match http2.dyn f with
      | http2.SettingsFrame =>
          let actual := Some (ResultFrame (http2.Type_ (http2.Header f))
                                          (http2.Flags (http2.Header f))
                                          ErrCodeDefault) in
          if http2.IsAck f then Break actual else Continue actual
      | _ =>
          Continue (Some (ResultFrame (http2.Type_ (http2.Header f))
                                      FlagDefault ErrCodeDefault))
      end
  end.

(** The loop, for at most [fuel] turns. *)
Fixpoint loop `{Harness} (fuel : nat) (ctx : Context) (actual : option Result)
  : Conn (option Result) :=
  match fuel with
  | O => fun _ => Waiting
  | S fuel' =>
      r <- ReadFrame (Timeout ctx) ;;
      match loop_body actual r with
      | Break actual' => ret actual'
      | Continue actual' => loop fuel' ctx actual'
      end
  end.

(** The loop as the handler runs it, [actual] being nil at first.  Each
    turn takes one answer of the peer, so as many turns as there are
    answers left never fall short. *)
Definition read_loop `{Harness} (ctx : Context) : Conn (option Result) :=
  fun c => loop (List.length (pending c)) ctx None c.

(** ** The handlers of section 6.5 *)

(** "Sends a SETTINGS frame" *)
Definition SendsSettingsFrame `{Harness} (ctx : Context) : Run Verdict :=
  let expected :=
    [ResultFrame http2.FrameSettings http2.FlagSettingsAck ErrCodeDefault] in
  let http2Conn := CreateHttp2Conn ctx true in
  defer_Close
    (let settings := http2.mkSetting http2.SettingMaxConcurrentStreams 100 in
     WriteSettings [settings] ;;
     actual <- read_loop ctx ;;
     ret (expected, actual))
    http2Conn.

(** "Sends a SETTINGS frame that is not a zero-length with ACK flag" *)
Definition SendsSettingsAckWithPayload `{Harness} (ctx : Context) : Run Verdict :=
  let http2Conn := CreateHttp2Conn ctx true in
  defer_Close
    (Fprintf [x00; x00; x01; x04; x01; x00; x00; x00; x00; x00] ;;
     let actualCodes := [http2.ErrCodeFrameSize] in
     TestConnectionError ctx actualCodes)
    http2Conn.

(** "Sends a SETTINGS frame with the stream identifier that is not 0x0" *)
Definition SendsSettingsOnStream `{Harness} (ctx : Context) : Run Verdict :=
  let http2Conn := CreateHttp2Conn ctx true in
  defer_Close
    (Fprintf [x00; x00; x06; x04; x00; x00; x00; x00; x03] ;;
     Fprintf [x00; x03; x00; x00; x00; x64] ;;
     let actualCodes := [http2.ErrCodeProtocol] in
     TestConnectionError ctx actualCodes)
    http2Conn.

(** "Sends a SETTINGS frame with a length other than a multiple of 6
    octets" *)
Definition SendsSettingsBadLength `{Harness} (ctx : Context) : Run Verdict :=
  let http2Conn := CreateHttp2Conn ctx true in
  defer_Close
    (Fprintf [x00; x00; x02; x04; x00; x00; x00; x00; x00] ;;
     Fprintf [x00; x00; x01] ;;
     let actualCodes := [http2.ErrCodeFrameSize] in
     TestConnectionError ctx actualCodes)
    http2Conn.

(** ** The handlers of section 6.5.2 *)

(** "SETTINGS_ENABLE_PUSH (0x2): Sends the value other than 0 or 1" *)
Definition EnablePushOther `{Harness} (ctx : Context) : Run Verdict :=
  let http2Conn := CreateHttp2Conn ctx true in
  defer_Close
    (Fprintf [x00; x00; x06; x04; x00; x00; x00; x00; x00] ;;
     Fprintf [x00; x02; x00; x00; x00; x02] ;;
     let actualCodes := [http2.ErrCodeProtocol] in
     TestConnectionError ctx actualCodes)
    http2Conn.

(** "SETTINGS_INITIAL_WINDOW_SIZE (0x4): Sends the value above the
    maximum flow control window size" *)
Definition InitialWindowSizeAbove `{Harness} (ctx : Context) : Run Verdict :=
  let http2Conn := CreateHttp2Conn ctx true in
  defer_Close
    (Fprintf [x00; x00; x06; x04; x00; x00; x00; x00; x00] ;;
     Fprintf [x00; x04; x80; x00; x00; x00] ;;
     let actualCodes := [http2.ErrCodeFlowControl] in
     TestConnectionError ctx actualCodes)
    http2Conn.

(** "SETTINGS_MAX_FRAME_SIZE (0x5): Sends the value below the initial
    value" *)
Definition MaxFrameSizeBelow `{Harness} (ctx : Context) : Run Verdict :=
  let http2Conn := CreateHttp2Conn ctx true in
  defer_Close
    (Fprintf [x00; x00; x06; x04; x00; x00; x00; x00; x00] ;;
     Fprintf [x00; x05; x00; x00; x3f; xff] ;;
     let actualCodes := [http2.ErrCodeProtocol] in
     TestConnectionError ctx actualCodes)
    http2Conn.

(** "SETTINGS_MAX_FRAME_SIZE (0x5): Sends the value above the maximum
    allowed frame size" *)
Definition MaxFrameSizeAbove `{Harness} (ctx : Context) : Run Verdict :=
  let http2Conn := CreateHttp2Conn ctx true in
  defer_Close
    (Fprintf [x00; x00; x06; x04; x00; x00; x00; x00; x00] ;;
     Fprintf [x00; x05; x01; x00; x00; x00] ;;
     let actualCodes := [http2.ErrCodeProtocol] in
     TestConnectionError ctx actualCodes)
    http2Conn.

(** ** Test cases and test groups *)

(** Modelled from the spec: [TestCase], [TestGroup] and their
    constructors are declared outside [6_5.go].  A case is a name, the
    cited text and the handler; a group is a section number, a title
    and the ordered sequences of its cases and of its sub-groups, to
    which registering appends. *)
Record TestCase : Type := mkTestCase {
  Desc : string;
  Spec : string;
  handler : Context -> Run Verdict
}.

#[local] Unset Elimination Schemes.
Inductive TestGroup : Type :=
| mkTestGroup (section name : string)
              (testCases : list TestCase) (testGroups : list TestGroup).
#[local] Set Elimination Schemes.

Definition NewTestCase (desc spec : string) (h : Context -> Run Verdict)
  : TestCase := mkTestCase desc spec h.

Definition NewTestGroup (section name : string) : TestGroup :=
  mkTestGroup section name [] [].

Definition AddTestCase (tg : TestGroup) (tc : TestCase) : TestGroup :=
  match tg with
  | mkTestGroup s n cases groups => mkTestGroup s n (cases ++ [tc]) groups
  end.

Definition AddTestGroup (tg sub : TestGroup) : TestGroup :=
  match tg with
  | mkTestGroup s n cases groups => mkTestGroup s n cases (groups ++ [sub])
  end.

Definition testCases (tg : TestGroup) : list TestCase :=
  match tg with mkTestGroup _ _ cases _ => cases end.

Definition testGroups (tg : TestGroup) : list TestGroup :=
  match tg with mkTestGroup _ _ _ groups => groups end.

(** The case of a group with the given name, if there is one. *)
Definition caseNamed (desc : string) (tg : TestGroup) : option TestCase :=
  find (fun tc => String.eqb (Desc tc) desc) (testCases tg).

Definition DefinedSettingsParametersTestGroup `{Harness} : TestGroup :=
  let tg := NewTestGroup "6.5.2" "Defined SETTINGS Parameters" in
  let tg := AddTestCase tg (NewTestCase
    "SETTINGS_ENABLE_PUSH (0x2): Sends the value other than 0 or 1"
    "The endpoint MUST respond with a connection error of type PROTOCOL_ERROR."
    EnablePushOther) in
  let tg := AddTestCase tg (NewTestCase
    "SETTINGS_INITIAL_WINDOW_SIZE (0x4): Sends the value above the maximum flow control window size"
    "The endpoint MUST respond with a connection error of type FLOW_CONTROL_ERROR."
    InitialWindowSizeAbove) in
  let tg := AddTestCase tg (NewTestCase
    "SETTINGS_MAX_FRAME_SIZE (0x5): Sends the value below the initial value"
    "The endpoint MUST respond with a connection error of type PROTOCOL_ERROR."
    MaxFrameSizeBelow) in
  let tg := AddTestCase tg (NewTestCase
    "SETTINGS_MAX_FRAME_SIZE (0x5): Sends the value above the maximum allowed frame size"
    "The endpoint MUST respond with a connection error of type PROTOCOL_ERROR."
    MaxFrameSizeAbove) in
  tg.

Definition SettingsTestGroup `{Harness} : TestGroup :=
  let tg := NewTestGroup "6.5" "SETTINGS" in
  let tg := AddTestCase tg (NewTestCase
    "Sends a SETTINGS frame"
    "The endpoint MUST sends a SETTINGS frame with ACK."
    SendsSettingsFrame) in
  let tg := AddTestCase tg (NewTestCase
    "Sends a SETTINGS frame that is not a zero-length with ACK flag"
    "The endpoint MUST respond with a connection error of type FRAME_SIZE_ERROR."
    SendsSettingsAckWithPayload) in
  let tg := AddTestCase tg (NewTestCase
    "Sends a SETTINGS frame with the stream identifier that is not 0x0"
    "The endpoint MUST respond with a connection error of type PROTOCOL_ERROR."
    SendsSettingsOnStream) in
  let tg := AddTestCase tg (NewTestCase
    "Sends a SETTINGS frame with a length other than a multiple of 6 octets"
    "The endpoint MUST respond with a connection error of type FRAME_SIZE_ERROR."
    SendsSettingsBadLength) in
  let tg := AddTestGroup tg DefinedSettingsParametersTestGroup in
  tg.

(** ** Vocabulary of the properties *)

(** The frames on which the loop breaks: a [*http2.SettingsFrame] whose
    [IsAck] holds. *)
Definition ends_loop (f : http2.Frame) : bool :=
  match http2.dyn f with
  | http2.SettingsFrame => http2.IsAck f
  | _ => false
  end.

(** The [ResultFrame] the loop stores in [actual] for a frame. *)
Definition recorded `{Harness} (f : http2.Frame) : Result :=
  match http2.dyn f with
  | http2.SettingsFrame =>
      ResultFrame (http2.Type_ (http2.Header f)) (http2.Flags (http2.Header f))
                  ErrCodeDefault
  | _ => ResultFrame (http2.Type_ (http2.Header f)) FlagDefault ErrCodeDefault
  end.

(** [actual] after the frames [fs], none of which ended the loop. *)
Definition last_recorded `{Harness} (fs : list http2.Frame) : option Result :=
  last (map (fun f => Some (recorded f)) fs) None.

(** The answers of [ReadFrame] on which the loop breaks: every error,
    and the frames of [ends_loop]. *)
Definition terminal (r : ReadResult) : bool :=
  match r with
  | ReadErr _ => true
  | ReadOk f => ends_loop f
  end.

(** The answers of [ReadFrame] that hold a frame come from the codec. *)
Definition from_codec (r : ReadResult) : bool :=
  match r with
  | ReadOk f => http2.decoded f
  | ReadErr _ => true
  end.

(** The loop over a list of answers, by recursion on the list: the
    value of [actual] at the break and the answers not yet taken, or
    [None] when the answers end first. *)
Fixpoint loop_over `{Harness} (actual : option Result) (rs : list ReadResult)
  : option (option Result * list ReadResult) :=
  match rs with
  | [] => None
  | r :: rest =>
      match loop_body actual r with
      | Break actual' => Some (actual', rest)
      | Continue actual' => loop_over actual' rest
      end
  end.

(** The connection as [TestConnectionError] finds it in the cases that
    write [octets] by hand: opened, then written to, nothing read. *)
Definition after_writing `{Harness} (ctx : Context) (octets : list byte)
  : Http2Conn :=
  let c := CreateHttp2Conn ctx true in
  {| written := written c ++ octets; pending := pending c; closed := closed c |}.

(** The errors whose cause is [ECONNRESET], "connection reset by peer":
    the errno itself, and any wrapping of such an error. *)
Fixpoint reset_by_peer (err : error) : bool :=
  match err with
  | syscall_Errno _ => error_eqb err syscall.ECONNRESET
  | net_OpError _ cause => reset_by_peer cause
  | os_SyscallError _ cause => reset_by_peer cause
  | _ => false
  end.

(** ** The connection check, as the specification describes it *)

(** A frame of explicit connection termination that carries one of the
    acceptable codes.  The code of such a frame is in its payload, which
    the frames here leave out: [codeOf] gives it. *)
Definition terminates (codeOf : http2.Frame -> Z) (codes : list Z)
    (f : http2.Frame) : bool :=
  match http2.dyn f with
  | http2.GoAwayFrame => existsb (Z.eqb (codeOf f)) codes
  | _ => false
  end.

(** The reading of the check over the answers of the peer, [budget]
    being the number of intervening frames still allowed: the result
    observed and the answers not yet taken, or [None] when the answers
    end first. *)
Fixpoint drain (flagDefault errCodeDefault : Z) (codeOf : http2.Frame -> Z)
    (codes : list Z) (budget : nat) (rs : list ReadResult) {struct rs}
  : option (Result * list ReadResult) :=
  match rs with
  | [] => None
  | ReadErr err :: rest =>
      if error_eqb err io_EOF || reset_by_peer err then
        Some (ResultConnectionClose, rest)
      else if error_eqb err TIMEOUT then Some (ResultTestTimeout, rest)
      else Some (ResultError err, rest)
  | ReadOk f :: rest =>
      if terminates codeOf codes f then
        Some (ResultFrame (http2.Type_ (http2.Header f)) flagDefault (codeOf f),
              rest)
      else
        match budget with
        | O => Some (ResultFrame (http2.Type_ (http2.Header f))
                                 flagDefault errCodeDefault, rest)
        | S budget' =>
            drain flagDefault errCodeDefault codeOf codes budget' rest
        end
  end.

(** Modelled from the spec: [TestConnectionError] is declared outside
    [6_5.go].  Given the connection and the acceptable error codes it
    calls [ReadFrame] until a frame of explicit termination with an
    acceptable code is seen (actual: that frame's observation), or the
    transport closes by EOF or reset (actual: connection closed), or
    the wait elapses with no decisive event (actual: timeout), or the
    transport fails otherwise (actual: transport error); any other
    frame is not terminal and the reading goes on, unless more than
    [limit] frames intervene, when the frame is reported as a
    mismatched observation.  The acceptable results are the closed
    connection and the termination frame with each acceptable code. *)
Definition TestConnectionError_spec (flagDefault errCodeDefault : Z)
    (limit : nat) (codeOf : http2.Frame -> Z)
    (ctx : Context) (codes : list Z) : Conn Verdict :=
  fun c =>
    let expected :=
      ResultConnectionClose
        :: map (fun code => ResultFrame http2.FrameGoAway flagDefault code) codes in
    match drain flagDefault errCodeDefault codeOf codes limit (pending c) with
    | Some (actual, rest) =>
        Returned (expected, Some actual)
                 {| written := written c; pending := rest; closed := closed c |}
    | None => Waiting
    end.

(** The harness [H] with the connection check of the specification in
    the place of its own. *)
Definition with_spec_check (H : Harness) (limit : nat)
    (codeOf : http2.Frame -> Z) : Harness :=
  {| FlagDefault := @FlagDefault H;
     ErrCodeDefault := @ErrCodeDefault H;
     CreateHttp2Conn := @CreateHttp2Conn H;
     TestConnectionError :=
       TestConnectionError_spec (@FlagDefault H) (@ErrCodeDefault H)
                                limit codeOf |}.

(** ** A harness for concrete runs

    Sample values of the two defaults, a connection on which [before]
    was already written and whose peer gives [answers], and a connection
    check that reads nothing and hands back the codes it was given. *)
Definition scripted (before : list byte) (answers : list ReadResult) : Harness :=
  {| FlagDefault := 0x0;
     ErrCodeDefault := 0xff;
     CreateHttp2Conn := fun _ _ => mkHttp2Conn before answers false;
     TestConnectionError := fun _ codes =>
       ret (ResultConnectionClose
              :: map (fun code => ResultFrame http2.FrameGoAway 0x0 code) codes,
            None) |}.

Definition localhost : Context :=
  {| Host := "127.0.0.1"; Port := 80; Tls := false; Timeout := 2000000000 |}.

Definition frame (kind : http2.FrameKind) (type flags length : Z) : http2.Frame :=
  {| http2.dyn := kind;
     http2.Header := {| http2.Type_ := type; http2.Flags := flags;
                        http2.Length := length; http2.StreamID := 0 |} |}.

(** A PING, a SETTINGS without ACK, a SETTINGS with ACK, and a SETTINGS
    whose flags octet has the ACK bit and one more bit. *)
Definition ping : http2.Frame := frame http2.PingFrame http2.FramePing 0 8.
Definition settings_plain : http2.Frame :=
  frame http2.SettingsFrame http2.FrameSettings 0 6.
Definition settings_ack : http2.Frame :=
  frame http2.SettingsFrame http2.FrameSettings 0x1 0.
Definition settings_ack_more : http2.Frame :=
  frame http2.SettingsFrame http2.FrameSettings 0x3 0.


(** * Properties *)

(** ** Equality of errors *)




(** ** The loop and its list form *)

Section Loop.
Variable H : Harness.
Variable ctx : Context.

Lemma loop_body_frame (actual : option Result) (f : http2.Frame) :
  loop_body actual (ReadOk f) =
  if ends_loop f then Break (Some (recorded f)) else Continue (Some (recorded f)).
Proof.
  unfold loop_body, ends_loop, recorded.
  destruct (http2.dyn f); reflexivity.
Qed.

Lemma loop_body_error (actual : option Result) (err : error) :
  exists r, loop_body actual (ReadErr err) = Break (Some r).
Proof.
  unfold loop_body.
  destruct (error_eqb err io_EOF || isConnReset err); [ now eexists | ].
  destruct (error_eqb err TIMEOUT); [ | now eexists ].
  destruct actual; now eexists.
Qed.

Lemma loop_body_break_set (actual : option Result) (r : ReadResult) (a : option Result) :
  loop_body actual r = Break a -> a <> None.
Proof.
  destruct r as [f | err].
  - rewrite loop_body_frame; destruct (ends_loop f); intros E; inversion E; discriminate.
  - destruct (loop_body_error actual err) as [x ->]; intros E; inversion E; discriminate.
Qed.

Lemma loop_is_loop_over (rs : list ReadResult) :
  forall (fuel : nat) (actual : option Result) (w : list byte) (cl : bool),
    (List.length rs <= fuel)%nat ->
    loop fuel ctx actual (mkHttp2Conn w rs cl) =
    match loop_over actual rs with
    | Some (a, rest) => Returned a (mkHttp2Conn w rest cl)
    | None => Waiting
    end.
Proof.
  induction rs as [ | r rs IH ]; intros fuel actual w cl Hfuel.
  - destruct fuel; reflexivity.
  - destruct fuel as [ | fuel ]; [ simpl in Hfuel; lia | ].
    simpl in Hfuel. simpl. unfold bind, ReadFrame. simpl.
    destruct (loop_body actual r) as [a | a]; [ reflexivity | ].
    apply IH; lia.
Qed.

Lemma SendsSettingsFrame_run :
  SendsSettingsFrame ctx =
  match loop_over None (pending (CreateHttp2Conn ctx true)) with
  | Some (a, rest) =>
      Returned
        ([ResultFrame http2.FrameSettings http2.FlagSettingsAck ErrCodeDefault], a)
        {| written := written (CreateHttp2Conn ctx true)
                      ++ http2.settingsFrame
                           [http2.mkSetting http2.SettingMaxConcurrentStreams 100];
           pending := rest;
           closed := true |}
  | None => Waiting
  end.
Proof.
  unfold SendsSettingsFrame, defer_Close, bind, WriteSettings, conn_Write, read_loop.
  cbn [pending written closed].
  rewrite loop_is_loop_over by apply Nat.le_refl.
  destruct (loop_over None (pending (CreateHttp2Conn ctx true))) as [[a rest] | ];
    reflexivity.
Qed.

Lemma last_cons_default {A} (l : list A) (x d : A) : last (x :: l) d = last l x.
Proof.
  revert x d; induction l as [ | y l IH ]; intros x d; [ reflexivity | ].
  change (last (x :: y :: l) d) with (last (y :: l) d).
  now rewrite (IH y d), (IH y x).
Qed.

Lemma loop_over_frames (fs : list http2.Frame) :
  forall (actual : option Result) (rs : list ReadResult),
    existsb ends_loop fs = false ->
    loop_over actual (map ReadOk fs ++ rs) =
    loop_over (last (map (fun f => Some (recorded f)) fs) actual) rs.
Proof.
  induction fs as [ | f fs IH ]; intros actual rs Hfs; [ reflexivity | ].
  simpl in Hfs. apply orb_false_iff in Hfs as [Hf Hfs].
  cbn [map app loop_over]. rewrite loop_body_frame, Hf.
  rewrite IH by assumption. now rewrite last_cons_default.
Qed.

Lemma loop_over_set (rs : list ReadResult) :
  forall actual a rest, loop_over actual rs = Some (a, rest) -> a <> None.
Proof.
  induction rs as [ | r rs IH ]; intros actual a rest; simpl; [ discriminate | ].
  destruct (loop_body actual r) as [b | b] eqn:E.
  - intros E'; inversion E'; subst. eapply loop_body_break_set; eassumption.
  - apply IH.
Qed.

Lemma loop_over_terminal (rs : list ReadResult) :
  forall actual, existsb terminal rs = true -> loop_over actual rs <> None.
Proof.
  induction rs as [ | r rs IH ]; intros actual; simpl; [ discriminate | ].
  destruct r as [f | err].
  - rewrite loop_body_frame. simpl. destruct (ends_loop f); simpl.
    + discriminate.
    + apply IH.
  - destruct (loop_body_error actual err) as [x ->]. discriminate.
Qed.

(** Where the loop broke: the answers taken are those before [rest],
    and the last of them made the body break. *)
Lemma loop_over_last (rs : list ReadResult) :
  forall actual a rest,
    loop_over actual rs = Some (a, rest) ->
    exists pre r b,
      rs = pre ++ r :: rest /\ loop_body b r = Break a
      /\ (b = actual \/ exists f, In (ReadOk f) pre /\ ends_loop f = false
                                  /\ b = Some (recorded f)).
Proof.
  induction rs as [ | r rs IH ]; intros actual a rest; simpl; [ discriminate | ].
  destruct (loop_body actual r) as [b | b] eqn:E.
  - intros E'; inversion E'; subst. exists [], r, actual. now auto.
  - intros E'. apply IH in E' as (pre & r' & b' & -> & Hbody & Hb).
    exists (r :: pre), r', b'. split; [ reflexivity | split; [ assumption | ] ].
    right. destruct Hb as [-> | (f & Hin & Hf & ->)].
    + destruct r as [f | err].
      * rewrite loop_body_frame in E. exists f.
        destruct (ends_loop f) eqn:Hf; inversion E. now auto with datatypes.
      * destruct (loop_body_error actual err) as [x Hx]. congruence.
    + exists f. now auto with datatypes.
Qed.

End Loop.

(** ** The cases that write their frame by hand *)

Section HandWritten.
Variable H : Harness.
Variable ctx : Context.

Lemma Fprintf_plain (format : list byte) (c : Http2Conn) :
  existsb (Byte.eqb x25) format = false ->
  Fprintf format c =
  Returned tt {| written := written c ++ format;
                 pending := pending c;
                 closed := closed c |}.
Proof. unfold Fprintf. now intros ->. Qed.

Lemma one_write_run (octets : list byte) (codes : list Z) :
  existsb (Byte.eqb x25) octets = false ->
  defer_Close (Fprintf octets ;; TestConnectionError ctx codes)
              (CreateHttp2Conn ctx true)
  = defer_Close (TestConnectionError ctx codes) (after_writing ctx octets).
Proof.
  intros Hplain. unfold defer_Close, bind.
  now rewrite Fprintf_plain by assumption.
Qed.

Lemma two_writes_run (header body : list byte) (codes : list Z) :
  existsb (Byte.eqb x25) header = false ->
  existsb (Byte.eqb x25) body = false ->
  defer_Close (Fprintf header ;; Fprintf body ;; TestConnectionError ctx codes)
              (CreateHttp2Conn ctx true)
  = defer_Close (TestConnectionError ctx codes)
                (after_writing ctx (header ++ body)).
Proof.
  intros Hheader Hbody. unfold defer_Close, bind.
  rewrite Fprintf_plain by assumption.
  rewrite Fprintf_plain by assumption.
  unfold after_writing. cbn [written pending closed].
  now rewrite <- app_assoc.
Qed.

Lemma SendsSettingsAckWithPayload_run :
  SendsSettingsAckWithPayload ctx =
  defer_Close (TestConnectionError ctx [http2.ErrCodeFrameSize])
    (after_writing ctx [x00; x00; x01; x04; x01; x00; x00; x00; x00; x00]).
Proof. apply one_write_run; reflexivity. Qed.

Lemma SendsSettingsOnStream_run :
  SendsSettingsOnStream ctx =
  defer_Close (TestConnectionError ctx [http2.ErrCodeProtocol])
    (after_writing ctx ([x00; x00; x06; x04; x00; x00; x00; x00; x03]
                        ++ [x00; x03; x00; x00; x00; x64])).
Proof. apply two_writes_run; reflexivity. Qed.

Lemma SendsSettingsBadLength_run :
  SendsSettingsBadLength ctx =
  defer_Close (TestConnectionError ctx [http2.ErrCodeFrameSize])
    (after_writing ctx ([x00; x00; x02; x04; x00; x00; x00; x00; x00]
                        ++ [x00; x00; x01])).
Proof. apply two_writes_run; reflexivity. Qed.

Lemma EnablePushOther_run :
  EnablePushOther ctx =
  defer_Close (TestConnectionError ctx [http2.ErrCodeProtocol])
    (after_writing ctx ([x00; x00; x06; x04; x00; x00; x00; x00; x00]
                        ++ [x00; x02; x00; x00; x00; x02])).
Proof. apply two_writes_run; reflexivity. Qed.

Lemma InitialWindowSizeAbove_run :
  InitialWindowSizeAbove ctx =
  defer_Close (TestConnectionError ctx [http2.ErrCodeFlowControl])
    (after_writing ctx ([x00; x00; x06; x04; x00; x00; x00; x00; x00]
                        ++ [x00; x04; x80; x00; x00; x00])).
Proof. apply two_writes_run; reflexivity. Qed.

Lemma MaxFrameSizeBelow_run :
  MaxFrameSizeBelow ctx =
  defer_Close (TestConnectionError ctx [http2.ErrCodeProtocol])
    (after_writing ctx ([x00; x00; x06; x04; x00; x00; x00; x00; x00]
                        ++ [x00; x05; x00; x00; x3f; xff])).
Proof. apply two_writes_run; reflexivity. Qed.

Lemma MaxFrameSizeAbove_run :
  MaxFrameSizeAbove ctx =
  defer_Close (TestConnectionError ctx [http2.ErrCodeProtocol])
    (after_writing ctx ([x00; x00; x06; x04; x00; x00; x00; x00; x00]
                        ++ [x00; x05; x01; x00; x00; x00])).
Proof. apply two_writes_run; reflexivity. Qed.

Lemma defer_Close_returned {A} (m : Conn A) (c0 c : Http2Conn) (a : A) :
  defer_Close m c0 = Returned a c ->
  exists c1, m c0 = Returned a c1 /\ c = Close c1.
Proof.
  unfold defer_Close. destruct (m c0) as [a' c1 | | ]; try discriminate.
  intros E; inversion E; subst. now exists c1.
Qed.

End HandWritten.

(** ** "Sends a SETTINGS frame": how the loop ends *)

(** The connection check of the specification on a deadline that
    elapses after frames none of which is decisive. *)
Lemma drain_timeout (fd ed : Z) (codeOf : http2.Frame -> Z) (codes : list Z)
    (fs : list http2.Frame) (rest : list ReadResult) :
  forall budget : nat,
    existsb (terminates codeOf codes) fs = false ->
    (List.length fs <= budget)%nat ->
    drain fd ed codeOf codes budget (map ReadOk fs ++ ReadErr TIMEOUT :: rest)
    = Some (ResultTestTimeout, rest).
Proof.
  induction fs as [ | f fs IH ]; intros budget Hfs Hlen; [ reflexivity | ].
  cbn [existsb] in Hfs. apply orb_false_iff in Hfs as [Hf Hfs].
  cbn [map app drain]. rewrite Hf.
  destruct budget as [ | budget ]; [ simpl in Hlen; lia | ].
  apply IH; [ assumption | simpl in Hlen; lia ].
Qed.

Lemma spec_check_timeout (H : Harness) (limit : nat) (codeOf : http2.Frame -> Z)
    (ctx : Context) (codes : list Z) (octets : list byte)
    (fs : list http2.Frame) (rest : list ReadResult) :
  pending (@CreateHttp2Conn H ctx true)
  = map ReadOk fs ++ ReadErr TIMEOUT :: rest ->
  existsb (terminates codeOf codes) fs = false ->
  (List.length fs <= limit)%nat ->
  exists expected c,
    defer_Close (@TestConnectionError (with_spec_check H limit codeOf) ctx codes)
                (@after_writing (with_spec_check H limit codeOf) ctx octets)
    = Returned (expected, Some ResultTestTimeout) c.
Proof.
  intros Hpending Hfs Hlen.
  unfold defer_Close, after_writing.
  cbn [TestConnectionError CreateHttp2Conn with_spec_check].
  unfold TestConnectionError_spec. cbn [pending written closed].
  rewrite Hpending, drain_timeout by assumption.
  now do 2 eexists.
Qed.

(** C1 (as amended).  In "Sends a SETTINGS frame", when [ReadFrame]
    answers [TIMEOUT] after frames that did not end the loop, the
    handler returns; its actual result is the Timeout variant when no
    frame came before, and otherwise it stays the frame observation
    stored for the last frame read.  Every other case of group 6.5 and
    of its sub-group has no read loop of its own: it is the run of
    [TestConnectionError], with the case's codes, on the connection
    after the case's octets, followed by the close; so with the
    connection check as the specification describes it, a deadline that
    elapses before any decisive frame, within the allowed number of
    frames, gives these cases the Timeout variant. *)
Theorem timeout_keeps_last_frame (H : Harness) (ctx : Context) :
  (forall fs rest,
      pending (CreateHttp2Conn ctx true)
      = map ReadOk fs ++ ReadErr TIMEOUT :: rest ->
      existsb ends_loop fs = false ->
      exists actual c,
        SendsSettingsFrame ctx =
        Returned
          ([ResultFrame http2.FrameSettings http2.FlagSettingsAck ErrCodeDefault],
           Some actual) c
        /\ pending c = rest
        /\ (fs = [] -> actual = ResultTestTimeout)
        /\ (forall fs' f, fs = fs' ++ [f] -> actual = recorded f))
  /\ (forall tc,
        In tc (testCases SettingsTestGroup)
        \/ (exists sub, In sub (testGroups SettingsTestGroup)
                        /\ In tc (testCases sub)) ->
        Desc tc <> "Sends a SETTINGS frame"%string ->
        exists octets codes,
          handler tc ctx =
          defer_Close (TestConnectionError ctx codes) (after_writing ctx octets))
  /\ (forall (limit : nat) (codeOf : http2.Frame -> Z) tc,
        In tc (testCases (@SettingsTestGroup (with_spec_check H limit codeOf)))
        \/ (exists sub,
               In sub (testGroups
                         (@SettingsTestGroup (with_spec_check H limit codeOf)))
               /\ In tc (testCases sub)) ->
        Desc tc <> "Sends a SETTINGS frame"%string ->
        exists octets codes,
          handler tc ctx =
          defer_Close
            (@TestConnectionError (with_spec_check H limit codeOf) ctx codes)
            (@after_writing (with_spec_check H limit codeOf) ctx octets)
          /\ forall fs rest,
               pending (CreateHttp2Conn ctx true)
               = map ReadOk fs ++ ReadErr TIMEOUT :: rest ->
               existsb (terminates codeOf codes) fs = false ->
               (List.length fs <= limit)%nat ->
               exists expected c,
                 handler tc ctx = Returned (expected, Some ResultTestTimeout) c).
Proof.
  split; [ | split ].
  - intros fs rest Hpending Hfs.
    rewrite SendsSettingsFrame_run, Hpending, loop_over_frames by assumption.
    cbn [loop_over loop_body error_eqb isConnReset orb].
    destruct fs as [ | f0 fs0 ] using rev_ind.
    + exists ResultTestTimeout. eexists. split; [ reflexivity | ].
      split; [ reflexivity | split; [ reflexivity | ] ].
      intros fs' f E. now destruct fs'.
    + rewrite map_app. cbn [map]. rewrite last_last. exists (recorded f0). eexists.
      split; [ reflexivity | split; [ reflexivity | split ] ].
      * intros E. now destruct fs0.
      * intros fs' f E. apply app_inj_tail in E as [_ ->]. reflexivity.
  - intros tc Hin Hname. cbn in Hin.
    destruct Hin as [[<- | [<- | [<- | [<- | []]]]] | (sub & [<- | []] & Hin)];
      [ now elim Hname | | | | ].
    4: cbn in Hin; destruct Hin as [<- | [<- | [<- | [<- | []]]]].
    all: cbn [handler NewTestCase];
      rewrite ?SendsSettingsAckWithPayload_run, ?SendsSettingsOnStream_run,
        ?SendsSettingsBadLength_run, ?EnablePushOther_run,
        ?InitialWindowSizeAbove_run, ?MaxFrameSizeBelow_run,
        ?MaxFrameSizeAbove_run;
      do 2 eexists; reflexivity.
  - intros limit codeOf tc Hin Hname. cbn in Hin.
    destruct Hin as [[<- | [<- | [<- | [<- | []]]]] | (sub & [<- | []] & Hin)];
      [ now elim Hname | | | | ].
    4: cbn in Hin; destruct Hin as [<- | [<- | [<- | [<- | []]]]].
    all: cbn [handler NewTestCase];
      rewrite ?SendsSettingsAckWithPayload_run, ?SendsSettingsOnStream_run,
        ?SendsSettingsBadLength_run, ?EnablePushOther_run,
        ?InitialWindowSizeAbove_run, ?MaxFrameSizeBelow_run,
        ?MaxFrameSizeAbove_run;
      do 2 eexists; (split; [ reflexivity | ]);
      intros fs rest Hpending Hfs Hlen;
      now apply spec_check_timeout with (fs := fs) (rest := rest).
Qed.

Lemma timeout_keeps_last_frame_witness :
  (pending (@CreateHttp2Conn
              (scripted [] [ReadOk settings_plain; ReadOk ping; ReadErr TIMEOUT])
              localhost true)
   = map ReadOk [settings_plain; ping] ++ ReadErr TIMEOUT :: []
   /\ existsb ends_loop [settings_plain; ping] = false
   /\ exists actual c,
       @SendsSettingsFrame
         (scripted [] [ReadOk settings_plain; ReadOk ping; ReadErr TIMEOUT])
         localhost
       = Returned ([ResultFrame 0x4 0x1 0xff], Some actual) c
       /\ actual = ResultFrame 0x6 0x0 0xff)
  /\ exists octets codes,
      @EnablePushOther
        (with_spec_check
           (scripted [] [ReadOk settings_plain; ReadOk ping; ReadErr TIMEOUT])
           2 (fun _ => 0x0))
        localhost
      = defer_Close
          (@TestConnectionError
             (with_spec_check
                (scripted [] [ReadOk settings_plain; ReadOk ping; ReadErr TIMEOUT])
                2 (fun _ => 0x0))
             localhost codes)
          (@after_writing
             (with_spec_check
                (scripted [] [ReadOk settings_plain; ReadOk ping; ReadErr TIMEOUT])
                2 (fun _ => 0x0))
             localhost octets)
      /\ (existsb (terminates (fun _ => 0x0) codes) [settings_plain; ping] = false ->
          exists expected c,
            @EnablePushOther
              (with_spec_check
                 (scripted [] [ReadOk settings_plain; ReadOk ping; ReadErr TIMEOUT])
                 2 (fun _ => 0x0))
              localhost
            = Returned (expected, Some ResultTestTimeout) c).
Proof.
  split.
  - split; [ reflexivity | split; [ reflexivity | ] ].
    destruct (proj1 (timeout_keeps_last_frame
                (scripted [] [ReadOk settings_plain; ReadOk ping; ReadErr TIMEOUT])
                localhost) [settings_plain; ping] [] eq_refl eq_refl)
      as (actual & c & Hrun & _ & _ & Hlast).
    exists actual, c. split; [ exact Hrun | ].
    exact (Hlast [settings_plain] ping eq_refl).
  - destruct (proj2 (proj2 (timeout_keeps_last_frame
                (scripted [] [ReadOk settings_plain; ReadOk ping; ReadErr TIMEOUT])
                localhost)) 2%nat (fun _ => 0x0)
                (NewTestCase
                   "SETTINGS_ENABLE_PUSH (0x2): Sends the value other than 0 or 1"
                   "The endpoint MUST respond with a connection error of type PROTOCOL_ERROR."
                   (@EnablePushOther
                      (with_spec_check
                         (scripted [] [ReadOk settings_plain; ReadOk ping;
                                       ReadErr TIMEOUT])
                         2 (fun _ => 0x0)))))
      as (octets & codes & Hrun & Htimeout).
    + right. eexists. split; [ left; reflexivity | left; reflexivity ].
    + discriminate.
    + exists octets, codes. split; [ exact Hrun | ].
      intros Hfs.
      apply (Htimeout [settings_plain; ping] [] eq_refl Hfs).
      simpl. lia.
Defined.

(** C1 (as stated) fails: a PING and then [TIMEOUT] leave the PING's
    observation as actual, not the Timeout variant. *)
Lemma timeout_after_frame_not_Timeout :
  pending (@CreateHttp2Conn (scripted [] [ReadOk ping; ReadErr TIMEOUT])
             localhost true)
  = map ReadOk [ping] ++ ReadErr TIMEOUT :: []
  /\ existsb ends_loop [ping] = false
  /\ @SendsSettingsFrame (scripted [] [ReadOk ping; ReadErr TIMEOUT]) localhost
     = Returned ([ResultFrame 0x4 0x1 0xff], Some (ResultFrame 0x6 0x0 0xff))
         {| written := [x00; x00; x06; x04; x00; x00; x00; x00; x00;
                        x00; x03; x00; x00; x00; x64];
            pending := [];
            closed := true |}
  /\ ~ (exists expected c,
          @SendsSettingsFrame (scripted [] [ReadOk ping; ReadErr TIMEOUT]) localhost
          = Returned (expected, Some ResultTestTimeout) c).
Proof.
  split; [ reflexivity | split; [ reflexivity | split; [ reflexivity | ] ] ].
  intros (expected & c & E). vm_compute in E. discriminate E.
Qed.




(** C9.  In "Sends a SETTINGS frame" every [break] of the loop leaves
    [actual] set, so the handler never returns a nil actual result; it
    does return as soon as [ReadFrame] gives an error or a SETTINGS
    frame with ACK, and it never leaves what is modelled. *)
Theorem actual_set_on_every_exit (H : Harness) (ctx : Context) :
  (forall actual r a, loop_body actual r = Break a -> exists res, a = Some res)
  /\ (forall expected actual c,
         SendsSettingsFrame ctx = Returned (expected, actual) c ->
         exists res, actual = Some res)
  /\ (existsb terminal (pending (CreateHttp2Conn ctx true)) = true ->
      exists expected res c,
        SendsSettingsFrame ctx = Returned (expected, Some res) c)
  /\ SendsSettingsFrame ctx <> Unsupported.
Proof.
  assert (Hset : forall a : option Result, a <> None -> exists res, a = Some res).
  { intros [res | ] Ha; [ now exists res | now elim Ha ]. }
  split; [ | split; [ | split ] ].
  - intros actual r a E. apply Hset. eapply loop_body_break_set; eassumption.
  - intros expected actual c. rewrite SendsSettingsFrame_run.
    destruct (loop_over None (pending (CreateHttp2Conn ctx true)))
      as [[a rest] | ] eqn:E; [ | discriminate ].
    intros E'; inversion E'; subst. apply Hset. eapply loop_over_set; eassumption.
  - intros Hterminal. rewrite SendsSettingsFrame_run.
    pose proof (loop_over_terminal H _ None Hterminal) as Hsome.
    destruct (loop_over None (pending (CreateHttp2Conn ctx true)))
      as [[a rest] | ] eqn:E; [ | now elim Hsome ].
    destruct (Hset a (loop_over_set H _ _ _ _ E)) as [res ->].
    now do 3 eexists.
  - rewrite SendsSettingsFrame_run.
    now destruct (loop_over None (pending (CreateHttp2Conn ctx true)))
      as [[a rest] | ].
Qed.

Lemma actual_set_on_every_exit_witness :
  existsb terminal
    (pending (@CreateHttp2Conn
                (scripted [] [ReadOk ping; ReadErr (errors_New "unexpected EOF")])
                localhost true)) = true
  /\ exists expected res c,
      @SendsSettingsFrame
        (scripted [] [ReadOk ping; ReadErr (errors_New "unexpected EOF")])
        localhost
      = Returned (expected, Some res) c.
Proof.
  split; [ reflexivity | ].
  apply (proj1 (proj2 (proj2
    (actual_set_on_every_exit
       (scripted [] [ReadOk ping; ReadErr (errors_New "unexpected EOF")])
       localhost)))).
  reflexivity.
Defined.

(** C10.  In "Sends a SETTINGS frame" a frame ends the loop only when it
    is a SETTINGS frame whose ACK flag is set; any other frame only
    replaces the stored observation and the loop reads on, carrying the
    new observation: it is what the handler returns when the wait then
    elapses.  No count of such frames ends the loop: after any number of
    them the handler is still inside [ReadFrame], and a SETTINGS frame
    with ACK that follows them is the one it returns. *)
Theorem only_settings_ack_ends_loop (H : Harness) (ctx : Context) :
  (forall actual f,
      (exists a, loop_body actual (ReadOk f) = Break a)
      <-> (http2.dyn f = http2.SettingsFrame /\ http2.IsAck f = true))
  /\ (forall actual f,
         ~ (http2.dyn f = http2.SettingsFrame /\ http2.IsAck f = true) ->
         loop_body actual (ReadOk f) = Continue (Some (recorded f)))
  /\ (forall fs,
         pending (CreateHttp2Conn ctx true) = map ReadOk fs ->
         existsb ends_loop fs = false ->
         SendsSettingsFrame ctx = Waiting)
  /\ (forall fs f rest,
         pending (CreateHttp2Conn ctx true) = map ReadOk fs ++ ReadOk f :: rest ->
         existsb ends_loop fs = false ->
         http2.dyn f = http2.SettingsFrame -> http2.IsAck f = true ->
         exists c,
           SendsSettingsFrame ctx =
           Returned
             ([ResultFrame http2.FrameSettings http2.FlagSettingsAck ErrCodeDefault],
              Some (ResultFrame (http2.Type_ (http2.Header f))
                                (http2.Flags (http2.Header f)) ErrCodeDefault)) c
           /\ pending c = rest)
  /\ (forall fuel actual f w rs cl,
         ~ (http2.dyn f = http2.SettingsFrame /\ http2.IsAck f = true) ->
         loop (S fuel) ctx actual (mkHttp2Conn w (ReadOk f :: rs) cl)
         = loop fuel ctx (Some (recorded f)) (mkHttp2Conn w rs cl))
  /\ (forall fs f rest,
         pending (CreateHttp2Conn ctx true)
         = map ReadOk (fs ++ [f]) ++ ReadErr TIMEOUT :: rest ->
         existsb ends_loop (fs ++ [f]) = false ->
         exists c,
           SendsSettingsFrame ctx =
           Returned
             ([ResultFrame http2.FrameSettings http2.FlagSettingsAck ErrCodeDefault],
              Some (recorded f)) c
           /\ pending c = rest).
Proof.
  assert (Hends : forall f, ends_loop f = true
                            <-> (http2.dyn f = http2.SettingsFrame
                                 /\ http2.IsAck f = true)).
  { intros f. unfold ends_loop. destruct (http2.dyn f); split;
      try discriminate; try tauto; intros [E _]; discriminate E. }
  split; [ | split; [ | split; [ | split; [ | split ] ] ] ].
  - intros actual f. rewrite loop_body_frame, <- Hends.
    destruct (ends_loop f); split; try discriminate; eauto.
    intros [a E]; discriminate E.
  - intros actual f Hf. rewrite loop_body_frame.
    destruct (ends_loop f) eqn:E; [ | reflexivity ].
    apply Hends in E. now elim Hf.
  - intros fs Hpending Hfs.
    rewrite SendsSettingsFrame_run, Hpending, <- (app_nil_r (map ReadOk fs)).
    now rewrite loop_over_frames by assumption.
  - intros fs f rest Hpending Hfs Hdyn Hack.
    rewrite SendsSettingsFrame_run, Hpending, loop_over_frames by assumption.
    cbn [loop_over]. rewrite loop_body_frame.
    rewrite (proj2 (Hends f) (conj Hdyn Hack)).
    unfold recorded. rewrite Hdyn. eexists. split; reflexivity.
  - intros fuel actual f w rs cl Hf.
    cbn [loop]. unfold bind, ReadFrame. cbn [pending written closed].
    rewrite loop_body_frame.
    destruct (ends_loop f) eqn:E; [ | reflexivity ].
    apply Hends in E. now elim Hf.
  - intros fs f rest Hpending Hfs.
    rewrite SendsSettingsFrame_run, Hpending, loop_over_frames by assumption.
    cbn [loop_over loop_body error_eqb isConnReset orb].
    rewrite map_app. cbn [map]. rewrite last_last.
    eexists. split; reflexivity.
Qed.

Lemma only_settings_ack_ends_loop_witness :
  (pending (@CreateHttp2Conn
              (scripted [] [ReadOk ping; ReadOk settings_plain; ReadOk ping])
              localhost true)
   = map ReadOk [ping; settings_plain; ping]
   /\ existsb ends_loop [ping; settings_plain; ping] = false
   /\ @SendsSettingsFrame
        (scripted [] [ReadOk ping; ReadOk settings_plain; ReadOk ping])
        localhost = Waiting)
  /\ (pending (@CreateHttp2Conn
                 (scripted [] [ReadOk ping; ReadOk settings_plain;
                               ReadOk settings_ack; ReadOk ping])
                 localhost true)
      = map ReadOk [ping; settings_plain] ++ ReadOk settings_ack :: [ReadOk ping]
      /\ exists c,
          @SendsSettingsFrame
            (scripted [] [ReadOk ping; ReadOk settings_plain;
                          ReadOk settings_ack; ReadOk ping])
            localhost
          = Returned ([ResultFrame 0x4 0x1 0xff], Some (ResultFrame 0x4 0x1 0xff)) c
          /\ pending c = [ReadOk ping])
  /\ (pending (@CreateHttp2Conn
                 (scripted [] [ReadOk ping; ReadOk settings_plain; ReadErr TIMEOUT])
                 localhost true)
      = map ReadOk ([ping] ++ [settings_plain]) ++ ReadErr TIMEOUT :: []
      /\ existsb ends_loop ([ping] ++ [settings_plain]) = false
      /\ exists c,
          @SendsSettingsFrame
            (scripted [] [ReadOk ping; ReadOk settings_plain; ReadErr TIMEOUT])
            localhost
          = Returned ([ResultFrame 0x4 0x1 0xff], Some (ResultFrame 0x4 0x0 0xff)) c
          /\ pending c = []).
Proof.
  split; [ | split ].
  - split; [ reflexivity | split; [ reflexivity | ] ].
    apply (proj1 (proj2 (proj2
      (only_settings_ack_ends_loop
         (scripted [] [ReadOk ping; ReadOk settings_plain; ReadOk ping])
         localhost))) [ping; settings_plain; ping]); reflexivity.
  - split; [ reflexivity | ].
    apply (proj1 (proj2 (proj2 (proj2
      (only_settings_ack_ends_loop
         (scripted [] [ReadOk ping; ReadOk settings_plain;
                       ReadOk settings_ack; ReadOk ping])
         localhost)))) [ping; settings_plain] settings_ack [ReadOk ping]);
      reflexivity.
  - split; [ reflexivity | split; [ reflexivity | ] ].
    apply (proj2 (proj2 (proj2 (proj2 (proj2
      (only_settings_ack_ends_loop
         (scripted [] [ReadOk ping; ReadOk settings_plain; ReadErr TIMEOUT])
         localhost))))) [ping] settings_plain []);
      reflexivity.
Defined.

(** ** "Sends a SETTINGS frame": when the case passes *)

Lemma kind_eqb_eq (a b : http2.FrameKind) : http2.kind_eqb a b = true -> a = b.
Proof. destruct a, b; simpl; intros E; try discriminate E; reflexivity. Qed.

Lemma typeFrameParser_settings (t : Z) :
  http2.typeFrameParser t = http2.SettingsFrame <-> t = http2.FrameSettings.
Proof.
  unfold http2.typeFrameParser.
  repeat match goal with
         | |- context [ ?a =? ?b ] => destruct (Z.eqb_spec a b); subst
         end;
    split; intros E; try discriminate E; try reflexivity; try assumption;
    now elim n3.
Qed.

Lemma decoded_kind (f : http2.Frame) :
  http2.decoded f = true ->
  http2.dyn f = http2.typeFrameParser (http2.Type_ (http2.Header f)).
Proof.
  unfold http2.decoded. rewrite !andb_true_iff.
  intros [[[[Hkind _] _] _] _]. now apply kind_eqb_eq.
Qed.

Section Pass.
Variable H : Harness.

Lemma waiting_frame_not_expected (f : http2.Frame) :
  http2.decoded f = true -> ends_loop f = false ->
  recorded f <> ResultFrame http2.FrameSettings http2.FlagSettingsAck ErrCodeDefault.
Proof.
  intros Hdec Hwait E. apply decoded_kind in Hdec.
  unfold ends_loop, recorded in *.
  destruct (http2.dyn f) eqn:Hdyn; inversion E as [[Htype Hflags]];
    try (rewrite Htype in Hdec; discriminate Hdec).
  unfold http2.IsAck, http2.Has in Hwait. now rewrite Hflags in Hwait.
Qed.

Lemma ending_frame_expected (f : http2.Frame) :
  http2.decoded f = true -> ends_loop f = true ->
  http2.dyn f = http2.SettingsFrame
  /\ (recorded f = ResultFrame http2.FrameSettings http2.FlagSettingsAck ErrCodeDefault
      <-> http2.Flags (http2.Header f) = http2.FlagSettingsAck).
Proof.
  intros Hdec Hend. apply decoded_kind in Hdec.
  unfold ends_loop, recorded in *.
  destruct (http2.dyn f) eqn:Hdyn; try discriminate Hend.
  split; [ reflexivity | ].
  symmetry in Hdec. apply typeFrameParser_settings in Hdec. rewrite Hdec.
  split; [ intros E; now inversion E | now intros -> ].
Qed.

Lemma loop_body_error_not_expected (b : option Result) (err : error) (a : option Result) :
  (forall res, b = Some res ->
     res <> ResultFrame http2.FrameSettings http2.FlagSettingsAck ErrCodeDefault) ->
  loop_body b (ReadErr err) = Break a ->
  a <> Some (ResultFrame http2.FrameSettings http2.FlagSettingsAck ErrCodeDefault).
Proof.
  intros Hb. unfold loop_body.
  destruct (error_eqb err io_EOF || isConnReset err).
  - intros E; inversion E; discriminate.
  - destruct (error_eqb err TIMEOUT).
    + destruct b as [res | ]; intros E; inversion E; subst; [ | discriminate ].
      intros E'; inversion E' as [Hres]. now apply (Hb res).
    + intros E; inversion E; discriminate.
Qed.

End Pass.

(** C2 (as amended).  "Sends a SETTINGS frame" expects exactly one
    result, the frame observation (SETTINGS, ACK flag, default error
    code).  Over frames decoded by the codec, a returned actual result
    is in the expected set exactly when the answer that ended the loop
    is a SETTINGS frame whose flags octet equals the ACK flag; when the
    loop ends on an error of [ReadFrame] (close, timeout, transport
    error) the actual result is outside the expected set. *)
Theorem pass_iff_flags_equal_ack (H : Harness) (ctx : Context)
    (expected : list Result) (actual : option Result) (c : Http2Conn) :
  forallb from_codec (pending (CreateHttp2Conn ctx true)) = true ->
  SendsSettingsFrame ctx = Returned (expected, actual) c ->
  expected = [ResultFrame http2.FrameSettings http2.FlagSettingsAck ErrCodeDefault]
  /\ ((exists res, actual = Some res /\ In res expected)
      <-> (exists pre f,
              pending (CreateHttp2Conn ctx true) = pre ++ ReadOk f :: pending c
              /\ http2.dyn f = http2.SettingsFrame
              /\ http2.Flags (http2.Header f) = http2.FlagSettingsAck))
  /\ (forall pre err,
         pending (CreateHttp2Conn ctx true) = pre ++ ReadErr err :: pending c ->
         forall res, actual = Some res -> ~ In res expected).
Proof.
  intros Hcodec. rewrite SendsSettingsFrame_run.
  destruct (loop_over None (pending (CreateHttp2Conn ctx true)))
    as [[a rest] | ] eqn:Hrun; [ | discriminate ].
  intros E; inversion E; subst; clear E. cbn [pending].
  split; [ reflexivity | ].
  rewrite forallb_forall in Hcodec.
  apply loop_over_last in Hrun as (pre & r & b & Hsplit & Hbody & Hb).
  set (exp := ResultFrame http2.FrameSettings http2.FlagSettingsAck ErrCodeDefault).
  assert (Hbexp : forall res, b = Some res -> res <> exp).
  { intros res ->. destruct Hb as [Hb | (f & Hin & Hwait & Hb)]; [ discriminate Hb | ].
    inversion Hb; subst. apply waiting_frame_not_expected; [ | assumption ].
    apply (Hcodec (ReadOk f)). rewrite Hsplit. apply in_or_app. now left. }
  assert (Hlast : forall pre' r',
             pending (CreateHttp2Conn ctx true) = pre' ++ r' :: rest -> r' = r).
  { intros pre' r' E. rewrite Hsplit in E.
    change (pre ++ [r] ++ rest = pre' ++ [r'] ++ rest) in E.
    rewrite !app_assoc in E. apply app_inv_tail in E.
    apply app_inj_tail in E as [_ E]. now symmetry. }
  assert (Hr : In r (pending (CreateHttp2Conn ctx true))).
  { rewrite Hsplit. apply in_or_app. right. now left. }
  destruct r as [f | err].
  - rewrite loop_body_frame in Hbody.
    destruct (ends_loop f) eqn:Hend; inversion Hbody as [Ha]; clear Hbody.
    destruct (ending_frame_expected H f (Hcodec _ Hr) Hend) as [Hdyn Hiff].
    split.
    + split.
      * intros (res & Hres & [Hin | []]). inversion Hres; subst res.
        exists pre, f. split; [ assumption | split; [ assumption | ] ].
        apply Hiff. now symmetry.
      * intros (pre' & f' & Hsplit' & _ & Hflags).
        apply Hlast in Hsplit'. inversion Hsplit'; subst f'.
        exists (recorded f). split; [ reflexivity | ].
        left. symmetry. now apply Hiff.
    + intros pre' err Hsplit'. apply Hlast in Hsplit'. discriminate Hsplit'.
  - pose proof (loop_body_error_not_expected H b err _ Hbexp Hbody) as Hnot.
    split.
    + split.
      * intros (res & -> & [Hin | []]). exfalso. apply Hnot. now rewrite <- Hin.
      * intros (pre' & f' & Hsplit' & _). apply Hlast in Hsplit'.
        discriminate Hsplit'.
    + intros pre' err' _ res -> [Hin | []]. apply Hnot. now rewrite <- Hin.
Qed.

Lemma pass_iff_flags_equal_ack_witness :
  forallb from_codec
    (pending (@CreateHttp2Conn (scripted [] [ReadOk ping; ReadOk settings_ack])
                localhost true)) = true
  /\ @SendsSettingsFrame (scripted [] [ReadOk ping; ReadOk settings_ack]) localhost
     = Returned ([ResultFrame 0x4 0x1 0xff], Some (ResultFrame 0x4 0x1 0xff))
         {| written := [x00; x00; x06; x04; x00; x00; x00; x00; x00;
                        x00; x03; x00; x00; x00; x64];
            pending := [];
            closed := true |}
  /\ exists res, Some (ResultFrame 0x4 0x1 0xff) = Some res
                 /\ In res [ResultFrame 0x4 0x1 0xff].
Proof.
  split; [ reflexivity | split; [ reflexivity | ] ].
  apply (proj1 (proj2
    (pass_iff_flags_equal_ack
       (scripted [] [ReadOk ping; ReadOk settings_ack]) localhost
       _ _ _ eq_refl eq_refl))).
  exists [ReadOk ping], settings_ack. repeat split.
Defined.

(** C2 (as stated) fails: a SETTINGS frame whose flags octet is 0x03 has
    its ACK flag set and ends the loop, yet the observation stored for
    it is not the expected one. *)
Lemma ack_with_more_flags_does_not_pass :
  http2.decoded settings_ack_more = true
  /\ http2.dyn settings_ack_more = http2.SettingsFrame
  /\ http2.IsAck settings_ack_more = true
  /\ @SendsSettingsFrame (scripted [] [ReadOk settings_ack_more]) localhost
     = Returned ([ResultFrame 0x4 0x1 0xff], Some (ResultFrame 0x4 0x3 0xff))
         {| written := [x00; x00; x06; x04; x00; x00; x00; x00; x00;
                        x00; x03; x00; x00; x00; x64];
            pending := [];
            closed := true |}
  /\ ~ In (ResultFrame 0x4 0x3 0xff) [ResultFrame 0x4 0x1 0xff].
Proof.
  repeat (split; [ reflexivity | ]).
  intros [E | []]. discriminate E.
Qed.

(** ** The octets of the hand-written frames *)

(** The case is found under its name, and its handler is rewritten with
    the equation [run] of the handler. *)
Ltac named_case run :=
  eexists; split; [ reflexivity | ];
  cbn [handler NewTestCase]; rewrite run.

(** On a connection that had the octet 0x50 written to it at opening,
    the case with the short length leaves these octets on the wire. *)
Example bad_length_on_the_wire :
  @SendsSettingsBadLength (scripted [x50] []) localhost
  = Returned
      ([ResultConnectionClose; ResultFrame 0x7 0x0 0x6], None)
      {| written := [x50; x00; x00; x02; x04; x00; x00; x00; x00; x00;
                     x00; x00; x01];
         pending := [];
         closed := true |}.
Proof. reflexivity. Qed.

Example ack_with_payload_on_the_wire :
  @SendsSettingsAckWithPayload (scripted [x50] []) localhost
  = Returned
      ([ResultConnectionClose; ResultFrame 0x7 0x0 0x6], None)
      {| written := [x50; x00; x00; x01; x04; x01; x00; x00; x00; x00; x00];
         pending := [];
         closed := true |}.
Proof. reflexivity. Qed.

(** C3.  "Sends a SETTINGS frame that is not a zero-length with ACK
    flag" writes the nine header octets 00 00 01 04 01 00 00 00 00
    (length 1, type SETTINGS, flags ACK, stream 0) and then one payload
    octet, and hands [TestConnectionError] the codes
    [[ErrCodeFrameSize]] and nothing else. *)
Theorem ack_with_payload_case (H : Harness) (ctx : Context) :
  exists tc,
    caseNamed "Sends a SETTINGS frame that is not a zero-length with ACK flag"
      SettingsTestGroup = Some tc
    /\ handler tc ctx =
       defer_Close (TestConnectionError ctx [http2.ErrCodeFrameSize])
         (after_writing ctx
            ([x00; x00; x01; x04; x01; x00; x00; x00; x00] ++ [x00]))
    /\ http2.readFrameHeader [x00; x00; x01; x04; x01; x00; x00; x00; x00]
       = Some {| http2.Type_ := http2.FrameSettings;
                 http2.Flags := http2.FlagSettingsAck;
                 http2.Length := 1;
                 http2.StreamID := 0 |}
    /\ List.length [x00] = 1%nat
    /\ [http2.ErrCodeFrameSize] = [0x6].
Proof.
  named_case SendsSettingsAckWithPayload_run.
  repeat split.
Qed.

(** C4.  "Sends a SETTINGS frame with the stream identifier that is not
    0x0" writes the header octets 00 00 06 04 00 00 00 00 03 (length 6,
    type SETTINGS, no flag, stream 3) and then the six octets
    00 03 00 00 00 64, and hands [TestConnectionError] the codes
    [[ErrCodeProtocol]] and nothing else. *)
Theorem nonzero_stream_case (H : Harness) (ctx : Context) :
  exists tc,
    caseNamed "Sends a SETTINGS frame with the stream identifier that is not 0x0"
      SettingsTestGroup = Some tc
    /\ handler tc ctx =
       defer_Close (TestConnectionError ctx [http2.ErrCodeProtocol])
         (after_writing ctx
            ([x00; x00; x06; x04; x00; x00; x00; x00; x03]
             ++ [x00; x03; x00; x00; x00; x64]))
    /\ http2.readFrameHeader [x00; x00; x06; x04; x00; x00; x00; x00; x03]
       = Some {| http2.Type_ := http2.FrameSettings;
                 http2.Flags := 0;
                 http2.Length := 6;
                 http2.StreamID := 3 |}
    /\ http2.readSetting [x00; x03; x00; x00; x00; x64]
       = Some {| http2.ID := http2.SettingMaxConcurrentStreams; http2.Val := 100 |}
    /\ [http2.ErrCodeProtocol] = [0x1].
Proof.
  named_case SendsSettingsOnStream_run.
  repeat split.
Qed.

(** C5 (what the code does).  "Sends a SETTINGS frame with a length
    other than a multiple of 6 octets" writes a SETTINGS header on
    stream 0 whose declared length is 2, and then three payload octets:
    the declared length is not the number of octets that follow.  The
    codes handed to [TestConnectionError] are [[ErrCodeFrameSize]]. *)
Theorem bad_length_case_declares_two (H : Harness) (ctx : Context) :
  exists tc,
    caseNamed "Sends a SETTINGS frame with a length other than a multiple of 6 octets"
      SettingsTestGroup = Some tc
    /\ handler tc ctx =
       defer_Close (TestConnectionError ctx [http2.ErrCodeFrameSize])
         (after_writing ctx
            ([x00; x00; x02; x04; x00; x00; x00; x00; x00] ++ [x00; x00; x01]))
    /\ http2.readFrameHeader [x00; x00; x02; x04; x00; x00; x00; x00; x00]
       = Some {| http2.Type_ := http2.FrameSettings;
                 http2.Flags := 0;
                 http2.Length := 2;
                 http2.StreamID := 0 |}
    /\ List.length [x00; x00; x01] = 3%nat
    /\ 2 <> Z.of_nat (List.length [x00; x00; x01])
    /\ 2 mod 6 <> 0.
Proof.
  named_case SendsSettingsBadLength_run.
  repeat split; discriminate.
Qed.

(** C6.  "SETTINGS_ENABLE_PUSH (0x2): Sends the value other than 0 or 1"
    writes the header octets 00 00 06 04 00 00 00 00 00 and then the
    pair 00 02 00 00 00 02 (parameter 0x0002, value 2), and hands
    [TestConnectionError] the codes [[ErrCodeProtocol]] and nothing
    else. *)
Theorem enable_push_case (H : Harness) (ctx : Context) :
  exists tc,
    caseNamed "SETTINGS_ENABLE_PUSH (0x2): Sends the value other than 0 or 1"
      DefinedSettingsParametersTestGroup = Some tc
    /\ handler tc ctx =
       defer_Close (TestConnectionError ctx [http2.ErrCodeProtocol])
         (after_writing ctx
            ([x00; x00; x06; x04; x00; x00; x00; x00; x00]
             ++ [x00; x02; x00; x00; x00; x02]))
    /\ http2.readFrameHeader [x00; x00; x06; x04; x00; x00; x00; x00; x00]
       = Some {| http2.Type_ := http2.FrameSettings;
                 http2.Flags := 0;
                 http2.Length := 6;
                 http2.StreamID := 0 |}
    /\ http2.readSetting [x00; x02; x00; x00; x00; x02]
       = Some {| http2.ID := http2.SettingEnablePush; http2.Val := 2 |}
    /\ [http2.ErrCodeProtocol] = [0x1].
Proof.
  named_case EnablePushOther_run.
  repeat split.
Qed.

(** C7.  The three limit cases of group 6.5.2 each write the header
    octets 00 00 06 04 00 00 00 00 00 and then one six-octet pair:
    parameter 0x0004 with value 0x80000000 and the codes
    [[ErrCodeFlowControl]]; parameter 0x0005 with value 0x00003fff and
    the codes [[ErrCodeProtocol]]; parameter 0x0005 with value
    0x01000000 and the codes [[ErrCodeProtocol]]. *)
Theorem parameter_limit_cases (H : Harness) (ctx : Context) :
  http2.readFrameHeader [x00; x00; x06; x04; x00; x00; x00; x00; x00]
  = Some {| http2.Type_ := http2.FrameSettings;
            http2.Flags := 0;
            http2.Length := 6;
            http2.StreamID := 0 |}
  /\ (exists tc,
         caseNamed "SETTINGS_INITIAL_WINDOW_SIZE (0x4): Sends the value above the maximum flow control window size"
           DefinedSettingsParametersTestGroup = Some tc
         /\ handler tc ctx =
            defer_Close (TestConnectionError ctx [http2.ErrCodeFlowControl])
              (after_writing ctx
                 ([x00; x00; x06; x04; x00; x00; x00; x00; x00]
                  ++ [x00; x04; x80; x00; x00; x00]))
         /\ http2.readSetting [x00; x04; x80; x00; x00; x00]
            = Some {| http2.ID := 0x0004; http2.Val := 0x80000000 |})
  /\ (exists tc,
         caseNamed "SETTINGS_MAX_FRAME_SIZE (0x5): Sends the value below the initial value"
           DefinedSettingsParametersTestGroup = Some tc
         /\ handler tc ctx =
            defer_Close (TestConnectionError ctx [http2.ErrCodeProtocol])
              (after_writing ctx
                 ([x00; x00; x06; x04; x00; x00; x00; x00; x00]
                  ++ [x00; x05; x00; x00; x3f; xff]))
         /\ http2.readSetting [x00; x05; x00; x00; x3f; xff]
            = Some {| http2.ID := 0x0005; http2.Val := 0x00003fff |})
  /\ (exists tc,
         caseNamed "SETTINGS_MAX_FRAME_SIZE (0x5): Sends the value above the maximum allowed frame size"
           DefinedSettingsParametersTestGroup = Some tc
         /\ handler tc ctx =
            defer_Close (TestConnectionError ctx [http2.ErrCodeProtocol])
              (after_writing ctx
                 ([x00; x00; x06; x04; x00; x00; x00; x00; x00]
                  ++ [x00; x05; x01; x00; x00; x00]))
         /\ http2.readSetting [x00; x05; x01; x00; x00; x00]
            = Some {| http2.ID := 0x0005; http2.Val := 0x01000000 |})
  /\ [http2.ErrCodeFlowControl; http2.ErrCodeProtocol] = [0x3; 0x1].
Proof.
  split; [ reflexivity | ].
  split; [ | split; [ | split ] ].
  - named_case InitialWindowSizeAbove_run. now split.
  - named_case MaxFrameSizeBelow_run. now split.
  - named_case MaxFrameSizeAbove_run. now split.
  - reflexivity.
Qed.

(** * Further properties of the two groups *)

(** ** When the loop stops, and what it has read by then *)

Section Stops.
Variable H : Harness.
Variable ctx : Context.

Lemma loop_body_terminal (actual : option Result) (r : ReadResult) :
  terminal r = true -> exists res, loop_body actual r = Break (Some res).
Proof.
  destruct r as [f | err]; cbn [terminal]; intros Hr.
  - rewrite loop_body_frame, Hr. now eexists.
  - apply loop_body_error.
Qed.

Lemma loop_body_not_terminal (actual : option Result) (r : ReadResult) :
  terminal r = false ->
  exists f, r = ReadOk f /\ loop_body actual r = Continue (Some (recorded f)).
Proof.
  destruct r as [f | err]; cbn [terminal]; intros Hr; [ | discriminate Hr ].
  exists f. now rewrite loop_body_frame, Hr.
Qed.

Lemma loop_over_none (rs : list ReadResult) :
  forall actual, loop_over actual rs = None <-> existsb terminal rs = false.
Proof.
  induction rs as [ | r rs IH ]; intros actual; cbn [loop_over existsb];
    [ tauto | ].
  destruct (terminal r) eqn:Hr; cbn [orb].
  - destruct (loop_body_terminal actual r Hr) as [res ->].
    split; discriminate.
  - destruct (loop_body_not_terminal actual r Hr) as (f & _ & ->). apply IH.
Qed.

Lemma loop_over_first_terminal (rs : list ReadResult) :
  forall actual a rest,
    loop_over actual rs = Some (a, rest) ->
    exists pre r,
      rs = pre ++ r :: rest /\ terminal r = true /\ existsb terminal pre = false.
Proof.
  induction rs as [ | r rs IH ]; intros actual a rest; cbn [loop_over];
    [ discriminate | ].
  destruct (terminal r) eqn:Hr.
  - destruct (loop_body_terminal actual r Hr) as [res ->].
    intros E; inversion E; subst. now exists [], r.
  - destruct (loop_body_not_terminal actual r Hr) as (f & _ & ->).
    intros E. apply IH in E as (pre & r' & -> & Hr' & Hpre).
    exists (r :: pre), r'. cbn [app existsb]. now rewrite Hr.
Qed.

Lemma loop_over_app (rs more : list ReadResult) :
  forall actual a rest,
    loop_over actual rs = Some (a, rest) ->
    loop_over actual (rs ++ more) = Some (a, rest ++ more).
Proof.
  induction rs as [ | r rs IH ]; intros actual a rest; cbn [loop_over app];
    [ discriminate | ].
  destruct (loop_body actual r) as [b | b].
  - intros E; now inversion E.
  - apply IH.
Qed.

Lemma read_loop_run (w : list byte) (rs : list ReadResult) (cl : bool) :
  read_loop ctx (mkHttp2Conn w rs cl) =
  match loop_over None rs with
  | Some (a, rest) => Returned a (mkHttp2Conn w rest cl)
  | None => Waiting
  end.
Proof. unfold read_loop. cbn [pending]. now apply loop_is_loop_over. Qed.

Lemma loop_over_after_frame (f : http2.Frame) (rs : list ReadResult)
    (a b : option Result) :
  loop_over a (ReadOk f :: rs) = loop_over b (ReadOk f :: rs).
Proof. cbn [loop_over]. now rewrite !loop_body_frame. Qed.

End Stops.

(** X1.  "Sends a SETTINGS frame" is still waiting exactly when no
    answer of the peer is an error or a SETTINGS frame with ACK; with
    such an answer it returns. *)
Theorem waiting_iff_no_terminal_answer (H : Harness) (ctx : Context) :
  (SendsSettingsFrame ctx = Waiting
   <-> existsb terminal (pending (CreateHttp2Conn ctx true)) = false)
  /\ ((exists v c, SendsSettingsFrame ctx = Returned v c)
      <-> existsb terminal (pending (CreateHttp2Conn ctx true)) = true).
Proof.
  rewrite SendsSettingsFrame_run.
  pose proof (loop_over_none H (pending (CreateHttp2Conn ctx true)) None) as Hnone.
  destruct (loop_over None (pending (CreateHttp2Conn ctx true)))
    as [[a rest] | ] eqn:E.
  - assert (Ht : existsb terminal (pending (CreateHttp2Conn ctx true)) = true).
    { destruct (existsb terminal (pending (CreateHttp2Conn ctx true)));
        [ reflexivity | ].
      discriminate (proj2 Hnone eq_refl). }
    rewrite Ht. split; split; try discriminate; eauto.
  - rewrite (proj1 Hnone eq_refl). split; split; try discriminate; trivial.
    intros (v & c & E'). discriminate E'.
Qed.

Lemma waiting_iff_no_terminal_answer_witness :
  existsb terminal
    (pending (@CreateHttp2Conn (scripted [] [ReadOk ping; ReadOk settings_plain])
                localhost true)) = false
  /\ @SendsSettingsFrame (scripted [] [ReadOk ping; ReadOk settings_plain])
       localhost = Waiting.
Proof.
  split; [ reflexivity | ].
  apply (proj2 (proj1
    (waiting_iff_no_terminal_answer
       (scripted [] [ReadOk ping; ReadOk settings_plain]) localhost))).
  reflexivity.
Defined.

(** X2.  When "Sends a SETTINGS frame" returns, it has read the answers
    of the peer up to the first error or SETTINGS frame with ACK and no
    further: the answers after that one are still unread. *)
Theorem reads_up_to_first_terminal_answer (H : Harness) (ctx : Context)
    (v : Verdict) (c : Http2Conn) :
  SendsSettingsFrame ctx = Returned v c ->
  exists pre r,
    pending (CreateHttp2Conn ctx true) = pre ++ r :: pending c
    /\ terminal r = true
    /\ existsb terminal pre = false.
Proof.
  rewrite SendsSettingsFrame_run.
  destruct (loop_over None (pending (CreateHttp2Conn ctx true)))
    as [[a rest] | ] eqn:E; [ | discriminate ].
  intros E'; inversion E'; subst. cbn [pending].
  eapply loop_over_first_terminal; eassumption.
Qed.

Lemma reads_up_to_first_terminal_answer_witness :
  exists pre r,
    [ReadOk ping; ReadErr io_EOF; ReadOk settings_ack]
    = pre ++ r :: [ReadOk settings_ack]
    /\ terminal r = true /\ existsb terminal pre = false.
Proof.
  apply (reads_up_to_first_terminal_answer
           (scripted [] [ReadOk ping; ReadErr io_EOF; ReadOk settings_ack])
           localhost
           ([ResultFrame 0x4 0x1 0xff], Some ResultConnectionClose)
           {| written := [x00; x00; x06; x04; x00; x00; x00; x00; x00;
                          x00; x03; x00; x00; x00; x64];
              pending := [ReadOk settings_ack];
              closed := true |}).
  reflexivity.
Defined.

(** X3.  Whatever the peer answers, the only octets "Sends a SETTINGS
    frame" has written when it returns are those [WriteSettings] wrote
    for the one setting MAX_CONCURRENT_STREAMS = 100, after what the
    opening of the connection wrote: the loop writes nothing, in
    particular no acknowledgement of a SETTINGS frame of the peer. *)
Theorem writes_one_settings_frame (H : Harness) (ctx : Context)
    (v : Verdict) (c : Http2Conn) :
  SendsSettingsFrame ctx = Returned v c ->
  written c =
  written (CreateHttp2Conn ctx true)
  ++ http2.settingsFrame [http2.mkSetting http2.SettingMaxConcurrentStreams 100].
Proof.
  rewrite SendsSettingsFrame_run.
  destruct (loop_over None (pending (CreateHttp2Conn ctx true)))
    as [[a rest] | ]; [ | discriminate ].
  intros E; inversion E; subst. reflexivity.
Qed.

Lemma writes_one_settings_frame_witness :
  written {| written := [x50; x00; x00; x06; x04; x00; x00; x00; x00; x00;
                         x00; x03; x00; x00; x00; x64];
             pending := [];
             closed := true |}
  = written (@CreateHttp2Conn
               (scripted [x50] [ReadOk settings_plain; ReadOk settings_ack])
               localhost true)
    ++ http2.settingsFrame [http2.mkSetting http2.SettingMaxConcurrentStreams 100].
Proof.
  apply (writes_one_settings_frame
           (scripted [x50] [ReadOk settings_plain; ReadOk settings_ack])
           localhost
           ([ResultFrame 0x4 0x1 0xff], Some (ResultFrame 0x4 0x1 0xff))).
  reflexivity.
Defined.

(** X4.  A frame observation returned by "Sends a SETTINGS frame" is
    always that of a frame the peer really sent: its type is that
    frame's type, its error code is always the default one, and its
    flags are the frame's flags for a SETTINGS frame and the default
    flags for a frame of any other type. *)
Theorem frame_observation_of_a_read_frame (H : Harness) (ctx : Context)
    (expected : list Result) (t fl e : Z) (c : Http2Conn) :
  SendsSettingsFrame ctx = Returned (expected, Some (ResultFrame t fl e)) c ->
  exists f,
    In (ReadOk f) (pending (CreateHttp2Conn ctx true))
    /\ t = http2.Type_ (http2.Header f)
    /\ e = ErrCodeDefault
    /\ ((http2.dyn f = http2.SettingsFrame /\ fl = http2.Flags (http2.Header f))
        \/ (http2.dyn f <> http2.SettingsFrame /\ fl = FlagDefault)).
Proof.
  rewrite SendsSettingsFrame_run.
  destruct (loop_over None (pending (CreateHttp2Conn ctx true)))
    as [[a rest] | ] eqn:Hrun; [ | discriminate ].
  intros E; inversion E; subst; clear E.
  apply loop_over_last in Hrun as (pre & r & b & Hsplit & Hbody & Hb).
  assert (Hrec : exists f, In (ReadOk f) (pending (CreateHttp2Conn ctx true))
                           /\ ResultFrame t fl e = recorded f).
  { destruct r as [f | err].
    - rewrite loop_body_frame in Hbody.
      destruct (ends_loop f); inversion Hbody as [Hf].
      exists f. split; [ | reflexivity ].
      rewrite Hsplit. apply in_or_app. right. now left.
    - unfold loop_body in Hbody.
      destruct (error_eqb err io_EOF || isConnReset err);
        [ discriminate Hbody | ].
      destruct (error_eqb err TIMEOUT); [ | discriminate Hbody ].
      destruct Hb as [-> | (f & Hin & _ & ->)]; [ discriminate Hbody | ].
      inversion Hbody as [Hf]. exists f. split; [ | reflexivity ].
      rewrite Hsplit. apply in_or_app. now left. }
  destruct Hrec as (f & Hin & Hrec). exists f. split; [ assumption | ].
  unfold recorded in Hrec.
  destruct (http2.dyn f) eqn:Hdyn; inversion Hrec; subst;
    (split; [ reflexivity | split; [ reflexivity | ] ]);
    solve [ left; now split | right; split; [ discriminate | reflexivity ] ].
Qed.

Lemma frame_observation_of_a_read_frame_witness :
  exists f,
    In (ReadOk f) [ReadOk settings_plain; ReadOk ping; ReadErr TIMEOUT]
    /\ 0x6 = http2.Type_ (http2.Header f)
    /\ 0xff = 0xff
    /\ ((http2.dyn f = http2.SettingsFrame /\ 0x0 = http2.Flags (http2.Header f))
        \/ (http2.dyn f <> http2.SettingsFrame /\ 0x0 = 0x0)).
Proof.
  apply (frame_observation_of_a_read_frame
           (scripted [] [ReadOk settings_plain; ReadOk ping; ReadErr TIMEOUT])
           localhost [ResultFrame 0x4 0x1 0xff] 0x6 0x0 0xff
           {| written := [x00; x00; x06; x04; x00; x00; x00; x00; x00;
                          x00; x03; x00; x00; x00; x64];
              pending := [];
              closed := true |}).
  reflexivity.
Defined.

(** X5.  Answers of the peer that come after the one that ended the
    loop do not change what the loop returns: they are only left
    unread. *)
Theorem later_answers_do_not_matter (H : Harness) (ctx : Context)
    (w : list byte) (rs more : list ReadResult) (cl : bool)
    (a : option Result) (c : Http2Conn) :
  read_loop ctx (mkHttp2Conn w rs cl) = Returned a c ->
  read_loop ctx (mkHttp2Conn w (rs ++ more) cl)
  = Returned a {| written := written c;
                  pending := pending c ++ more;
                  closed := closed c |}.
Proof.
  rewrite !read_loop_run.
  destruct (loop_over None rs) as [[a' rest] | ] eqn:E; [ | discriminate ].
  rewrite (loop_over_app H rs more None a' rest E).
  intros E'; inversion E'; subst. reflexivity.
Qed.

Lemma later_answers_do_not_matter_witness :
  @read_loop (scripted [] []) localhost
    (mkHttp2Conn [] ([ReadOk ping; ReadErr TIMEOUT] ++ [ReadOk settings_ack]) false)
  = Returned (Some (ResultFrame 0x6 0x0 0xff))
      {| written := []; pending := [] ++ [ReadOk settings_ack]; closed := false |}.
Proof.
  apply (later_answers_do_not_matter (scripted [] []) localhost []
           [ReadOk ping; ReadErr TIMEOUT] [ReadOk settings_ack] false
           (Some (ResultFrame 0x6 0x0 0xff)) (mkHttp2Conn [] [] false)).
  reflexivity.
Defined.

(** X6.  The loop remembers only the last frame it has read: frames
    that did not end it and that came before another frame have no
    effect on what it returns. *)
Theorem earlier_frames_are_forgotten (H : Harness) (ctx : Context)
    (w : list byte) (fs : list http2.Frame) (f : http2.Frame)
    (rs : list ReadResult) (cl : bool) :
  existsb ends_loop fs = false ->
  read_loop ctx (mkHttp2Conn w (map ReadOk fs ++ ReadOk f :: rs) cl)
  = read_loop ctx (mkHttp2Conn w (ReadOk f :: rs) cl).
Proof.
  intros Hfs. rewrite !read_loop_run, loop_over_frames by assumption.
  now rewrite (loop_over_after_frame H f rs _ None).
Qed.

Lemma earlier_frames_are_forgotten_witness :
  existsb ends_loop [settings_plain; ping] = false
  /\ @read_loop (scripted [] []) localhost
       (mkHttp2Conn [] (map ReadOk [settings_plain; ping]
                        ++ ReadOk ping :: [ReadErr TIMEOUT]) false)
     = @read_loop (scripted [] []) localhost
         (mkHttp2Conn [] (ReadOk ping :: [ReadErr TIMEOUT]) false).
Proof.
  split; [ reflexivity | ].
  apply (earlier_frames_are_forgotten (scripted [] []) localhost []
           [settings_plain; ping] ping [ReadErr TIMEOUT] false).
  reflexivity.
Defined.

(** ** The two groups as a whole *)

(** X7.  Every handler of the two groups closes its connection before
    it returns. *)
Theorem handlers_close_the_connection (H : Harness) (ctx : Context)
    (tc : TestCase) (v : Verdict) (c : Http2Conn) :
  In tc (testCases SettingsTestGroup
         ++ testCases DefinedSettingsParametersTestGroup) ->
  handler tc ctx = Returned v c ->
  closed c = true.
Proof.
  intros Hin. cbn in Hin.
  destruct Hin as [<- | [<- | [<- | [<- | [<- | [<- | [<- | [<- | []]]]]]]]];
    cbn [handler NewTestCase].
  1: { rewrite SendsSettingsFrame_run.
       destruct (loop_over None (pending (CreateHttp2Conn ctx true)))
         as [[a rest] | ]; [ | discriminate ].
       intros E; now inversion E. }
  all: rewrite ?SendsSettingsAckWithPayload_run, ?SendsSettingsOnStream_run,
         ?SendsSettingsBadLength_run, ?EnablePushOther_run,
         ?InitialWindowSizeAbove_run, ?MaxFrameSizeBelow_run,
         ?MaxFrameSizeAbove_run;
    intros E; apply defer_Close_returned in E as (c1 & _ & ->); reflexivity.
Qed.

Lemma handlers_close_the_connection_witness :
  closed {| written := [x50; x00; x00; x06; x04; x00; x00; x00; x00; x00;
                        x00; x04; x80; x00; x00; x00];
            pending := [];
            closed := true |} = true.
Proof.
  apply (handlers_close_the_connection (scripted [x50] []) localhost
           (NewTestCase
              "SETTINGS_INITIAL_WINDOW_SIZE (0x4): Sends the value above the maximum flow control window size"
              "The endpoint MUST respond with a connection error of type FLOW_CONTROL_ERROR."
              (@InitialWindowSizeAbove (scripted [x50] [])))
           ([ResultConnectionClose; ResultFrame 0x7 0x0 0x3], None)).
  - cbn. do 5 right. left. reflexivity.
  - reflexivity.
Defined.

(** X8.  Group 6.5 registers four cases and then the one sub-group
    6.5.2, which registers four cases and no sub-group.  The eight case
    names are pairwise different, and looking a case up by its name in
    its group gives that case. *)
Theorem cases_are_found_by_name (H : Harness) :
  List.length (testCases SettingsTestGroup) = 4%nat
  /\ testGroups SettingsTestGroup = [DefinedSettingsParametersTestGroup]
  /\ List.length (testCases DefinedSettingsParametersTestGroup) = 4%nat
  /\ testGroups DefinedSettingsParametersTestGroup = []
  /\ NoDup (map Desc (testCases SettingsTestGroup
                      ++ testCases DefinedSettingsParametersTestGroup))
  /\ (forall tc, In tc (testCases SettingsTestGroup) ->
                 caseNamed (Desc tc) SettingsTestGroup = Some tc)
  /\ (forall tc, In tc (testCases DefinedSettingsParametersTestGroup) ->
                 caseNamed (Desc tc) DefinedSettingsParametersTestGroup = Some tc).
Proof.
  repeat (split; [ reflexivity | ]).
  split; [ | split ].
  - cbn. repeat constructor; cbn; intuition discriminate.
  - intros tc Hin. cbn in Hin.
    destruct Hin as [<- | [<- | [<- | [<- | []]]]]; reflexivity.
  - intros tc Hin. cbn in Hin.
    destruct Hin as [<- | [<- | [<- | [<- | []]]]]; reflexivity.
Qed.

Lemma cases_are_found_by_name_witness :
  caseNamed "Sends a SETTINGS frame with the stream identifier that is not 0x0"
    (@SettingsTestGroup (scripted [] []))
  = Some (NewTestCase
            "Sends a SETTINGS frame with the stream identifier that is not 0x0"
            "The endpoint MUST respond with a connection error of type PROTOCOL_ERROR."
            (@SendsSettingsOnStream (scripted [] []))).
Proof.
  apply (proj1 (proj2 (proj2 (proj2 (proj2 (proj2
    (cases_are_found_by_name (scripted [] [])))))))
    (NewTestCase
       "Sends a SETTINGS frame with the stream identifier that is not 0x0"
       "The endpoint MUST respond with a connection error of type PROTOCOL_ERROR."
       (@SendsSettingsOnStream (scripted [] [])))).
  cbn. do 2 right. left. reflexivity.
Defined.
